(** * Shallow embedding of the liquid-wlan frame synchronizer (wlanframesync.c)

    Samples are [float complex] in the source; they are modelled as pairs of
    real numbers (rounding is not modelled).  The synchronizer object
    [struct wlanframesync_s] is a record, the per-sample loop of
    [wlanframesync_execute] is an option-valued step function ([None] is the
    [exit(1)] of the invalid-state branch). *)

From Stdlib Require Import Reals Lra Lia QArith List Arith ZArith Bool.
Import ListNotations.

Open Scope R_scope.

(** ** Complex numbers *)

Record C : Type := mkC { re : R; im : R }.

Definition C0 : C := mkC 0 0.
Definition C1 : C := mkC 1 0.
Definition Cadd (a b : C) : C := mkC (re a + re b) (im a + im b).
Definition Cmul (a b : C) : C :=
  mkC (re a * re b - im a * im b) (re a * im b + im a * re b).
Definition Cscale (r : R) (a : C) : C := mkC (r * re a) (r * im a).
(** [conjf] *)
Definition Cconj (a : C) : C := mkC (re a) (- im a).
(** [cabsf] *)
Definition Cabs (a : C) : R := sqrt (re a * re a + im a * im a).
(** [liquid_cexpjf(t)] = cos t + j sin t *)
Definition cexpj (t : R) : C := mkC (cos t) (sin t).

(** ** External collaborators *)

(** The 64-point forward transform of FFTW / liquid ([FFT_DIR_FORWARD]):
    X[k] = sum_n x[n] exp(-2 pi j k n / 64).  The twiddle index is taken
    modulo 64, as the transform's twiddle table is. *)
Definition tw (j : nat) : C := cexpj (- (2 * PI * INR (j mod 64) / 64)).

Fixpoint dft_sum (xs : list C) (k n : nat) : C :=
  match xs with
  | [] => C0
  | x :: r => Cadd (Cmul x (tw (k * n))) (dft_sum r k (S n))
  end.

Definition dft (xs : list C) (k : nat) : C := dft_sum xs k 0.

(** liquid's [nco_crcf] object: phase [theta] and frequency [d_theta]. *)
Record nco := mkNCO { theta : R; d_theta : R }.

(** [nco_crcf_create]: phase and frequency start at zero. *)
Definition nco_crcf_create : nco := mkNCO 0 0.

(** [nco_crcf_mix_down(q, x, &y)]: y = x * exp(-j theta). *)
Definition nco_crcf_mix_down (q : nco) (x : C) : C := Cmul x (cexpj (- theta q)).

(** [nco_crcf_step]: theta += d_theta, then the phase is folded into
    [-pi, pi]. *)
Definition nco_constrain_phase (t : R) : R :=
  if Rgt_dec t PI then t - 2 * PI
  else if Rlt_dec t (- PI) then t + 2 * PI else t.

Definition nco_crcf_step (q : nco) : nco :=
  mkNCO (nco_constrain_phase (theta q + d_theta q)) (d_theta q).

(** liquid's [windowcf] of length 80: [push] drops the oldest sample and
    appends the new one; [clear] fills it with zeros; [read] returns the
    samples oldest first. *)
Definition windowcf_len : nat := 80.
Definition windowcf_clear : list C := repeat C0 windowcf_len.
Definition windowcf_push (w : list C) (x : C) : list C := tl w ++ [x].

(** ** Constant tables *)

(** Modelled from the spec: [wlanframe_S0] (frequency-domain short
    sequence) is defined in wlanframe.c, which is not under src/.  The spec
    places its energy on the bins {4,8,...,24,40,...,60} and takes the values
    from the 802.11 standard: sqrt(13/6) * (+-(1+j)), with the signs of
    Clause 17.3.3 mapped to FFT bins (bin k = subcarrier k, bin 64-k =
    subcarrier -k). *)
Definition S0_amp : R := sqrt (13 / 6).
Definition S0p : C := mkC S0_amp S0_amp.
Definition S0m : C := mkC (- S0_amp) (- S0_amp).

Definition wlanframe_S0 : list C :=
  [ C0;  C0; C0; C0;  S0m; C0; C0; C0;  S0m; C0; C0; C0;  S0p; C0; C0; C0;
    S0p; C0; C0; C0;  S0p; C0; C0; C0;  S0p; C0; C0; C0;  C0;  C0; C0; C0;
    C0;  C0; C0; C0;  C0;  C0; C0; C0;  S0p; C0; C0; C0;  S0m; C0; C0; C0;
    S0p; C0; C0; C0;  S0m; C0; C0; C0;  S0m; C0; C0; C0;  S0p; C0; C0; C0 ].

(** Table G.3 (part_001, [annexg_G3]): time-domain short sequence, real and
    imaginary parts as the decimal literals of the source. *)
Definition annexg_G3 : list (Q * Q) :=
  ([ (0.0460, 0.0460); (-0.1320, 0.0020); (-0.0130, -0.0790); (0.1430, -0.0130);
    (0.0920, 0.0000); (0.1430, -0.0130); (-0.0130, -0.0790); (-0.1320, 0.0020);
    (0.0460, 0.0460); (0.0020, -0.1320); (-0.0790, -0.0130); (-0.0130, 0.1430);
    (0.0000, 0.0920); (-0.0130, 0.1430); (-0.0790, -0.0130); (0.0020, -0.1320);
    (0.0460, 0.0460); (-0.1320, 0.0020); (-0.0130, -0.0790); (0.1430, -0.0130);
    (0.0920, 0.0000); (0.1430, -0.0130); (-0.0130, -0.0790); (-0.1320, 0.0020);
    (0.0460, 0.0460); (0.0020, -0.1320); (-0.0790, -0.0130); (-0.0130, 0.1430);
    (0.0000, 0.0920); (-0.0130, 0.1430); (-0.0790, -0.0130); (0.0020, -0.1320);
    (0.0460, 0.0460); (-0.1320, 0.0020); (-0.0130, -0.0790); (0.1430, -0.0130);
    (0.0920, 0.0000); (0.1430, -0.0130); (-0.0130, -0.0790); (-0.1320, 0.0020);
    (0.0460, 0.0460); (0.0020, -0.1320); (-0.0790, -0.0130); (-0.0130, 0.1430);
    (0.0000, 0.0920); (-0.0130, 0.1430); (-0.0790, -0.0130); (0.0020, -0.1320);
    (0.0460, 0.0460); (-0.1320, 0.0020); (-0.0130, -0.0790); (0.1430, -0.0130);
    (0.0920, 0.0000); (0.1430, -0.0130); (-0.0130, -0.0790); (-0.1320, 0.0020);
    (0.0460, 0.0460); (0.0020, -0.1320); (-0.0790, -0.0130); (-0.0130, 0.1430);
    (0.0000, 0.0920); (-0.0130, 0.1430); (-0.0790, -0.0130); (0.0020, -0.1320) ])%Q.

(** ** Array helpers *)

(** [a[i] = v] on a C array; out of range the array is unchanged. *)
Fixpoint set_nth {A : Type} (l : list A) (i : nat) (v : A) : list A :=
  match l, i with
  | [], _ => []
  | _ :: r, O => v :: r
  | x :: r, S i' => x :: set_nth r i' v
  end.

Definition get (l : list C) (i : nat) : C := nth i l C0.

(** ** Estimators *)

(** [wlanframesync_estimate_gain_S0]: the literal gain constant of the
    source, [0.054127f] (commented there as sqrt(12)/64). *)
Definition gain_S0 : R := 0.054127.

Definition S0_bin_gain (X : list C) (k : nat) : C :=
  Cscale gain_S0 (Cmul (get X k) (Cconj (get wlanframe_S0 k))).

Definition wlanframesync_estimate_gain_S0 (x : list C) : list C :=
  (* memmove 64 samples into the transform input, then FFT *)
  let X := map (dft (firstn 64 x)) (seq 0 64) in
  let G := repeat C0 64 in
  let G := set_nth G 40 (S0_bin_gain X 40) in
  let G := set_nth G 44 (S0_bin_gain X 44) in
  let G := set_nth G 48 (S0_bin_gain X 48) in
  let G := set_nth G 52 (S0_bin_gain X 52) in
  let G := set_nth G 56 (S0_bin_gain X 56) in
  let G := set_nth G 60 (S0_bin_gain X 60) in
  let G := set_nth G  4 (S0_bin_gain X  4) in
  let G := set_nth G  8 (S0_bin_gain X  8) in
  let G := set_nth G 12 (S0_bin_gain X 12) in
  let G := set_nth G 16 (S0_bin_gain X 16) in
  let G := set_nth G 20 (S0_bin_gain X 20) in
  let G := set_nth G 24 (S0_bin_gain X 24) in
  G.

(** One accumulation [s_hat += G[a] * conjf(G[b])]. *)
Definition acc (G : list C) (s : C) (a b : nat) : C :=
  Cadd s (Cmul (get G a) (Cconj (get G b))).

(** [wlanframesync_S0_metrics] (the [#else] branch that is compiled). *)
Definition wlanframesync_S0_metrics (G : list C) : C :=
  let s := C0 in
  let s := acc G s 44 40 in
  let s := acc G s 48 44 in
  let s := acc G s 52 48 in
  let s := acc G s 56 52 in
  let s := acc G s 60 56 in
  let s := acc G s  8  4 in
  let s := acc G s 12  8 in
  let s := acc G s 16 12 in
  let s := acc G s 20 16 in
  let s := acc G s 24 20 in
  Cscale 0.1 s.

(** ** The synchronizer object *)

(** Observable outputs: the debug report printed by the SEEK_PLCP handler
    (gain, rssi, |s_hat|, arg s_hat and tau_hat are all functions of the
    recorded [g] and [s_hat]) and invocations of the user callback. *)
Inductive event : Type :=
| EvSeekReport (g : R) (s_hat : C)
| EvCallback (rate length : nat) (payload : list Z) (valid : bool).

(** The enum of [struct wlanframesync_s], kept as the C [int] it is. *)
Definition WLANFRAMESYNC_STATE_SEEKPLCP : Z := 0.
Definition WLANFRAMESYNC_STATE_RXSHORT0 : Z := 1.
Definition WLANFRAMESYNC_STATE_RXSHORT1 : Z := 2.
Definition WLANFRAMESYNC_STATE_RXLONG0  : Z := 3.
Definition WLANFRAMESYNC_STATE_RXLONG1  : Z := 4.
Definition WLANFRAMESYNC_STATE_RXSIGNAL : Z := 5.
Definition WLANFRAMESYNC_STATE_RXDATA   : Z := 6.

(** The fields of [struct wlanframesync_s] that the sample path reads or
    writes (the debug-only AGC and trace windows of [DEBUG_WLANFRAMESYNC]
    feed nothing back and are left out), plus the output trace. *)
Record wlanframesync := mkSync {
  state : Z;
  timer : Z;
  input_buffer : list C;
  nco_rx : nco;
  G0a : list C;
  trace : list event
}.

Definition set_state (q : wlanframesync) (s : Z) : wlanframesync :=
  mkSync s (timer q) (input_buffer q) (nco_rx q) (G0a q) (trace q).
Definition set_timer (q : wlanframesync) (t : Z) : wlanframesync :=
  mkSync (state q) t (input_buffer q) (nco_rx q) (G0a q) (trace q).
Definition set_buffer (q : wlanframesync) (b : list C) : wlanframesync :=
  mkSync (state q) (timer q) b (nco_rx q) (G0a q) (trace q).
Definition set_nco (q : wlanframesync) (n : nco) : wlanframesync :=
  mkSync (state q) (timer q) (input_buffer q) n (G0a q) (trace q).
Definition set_G0a (q : wlanframesync) (g : list C) : wlanframesync :=
  mkSync (state q) (timer q) (input_buffer q) (nco_rx q) g (trace q).
Definition emit (q : wlanframesync) (e : event) : wlanframesync :=
  mkSync (state q) (timer q) (input_buffer q) (nco_rx q) (G0a q) (trace q ++ [e]).

(** [wlanframesync_reset] *)
Definition wlanframesync_reset (q : wlanframesync) : wlanframesync :=
  let q := set_buffer q windowcf_clear in
  let q := set_state q WLANFRAMESYNC_STATE_SEEKPLCP in
  set_timer q 0.

(** [wlanframesync_create]: [G0a] is left as [malloc] gives it, so it is a
    parameter. *)
Definition wlanframesync_create (G0a_init : list C) : wlanframesync :=
  wlanframesync_reset
    (mkSync WLANFRAMESYNC_STATE_SEEKPLCP 0 windowcf_clear nco_crcf_create G0a_init []).

(** [wlanframesync_get_rssi] and [wlanframesync_get_cfo] *)
Definition wlanframesync_get_rssi (q : wlanframesync) : R := 0.
Definition wlanframesync_get_cfo (q : wlanframesync) : R := 0.

(** The gain loop of [wlanframesync_execute_seekplcp]:
    g = sum over rc[16..80) of re^2 + im^2. *)
Definition energy (xs : list C) : R :=
  fold_left (fun g x => g + (re x * re x + im x * im x)) xs 0.

(** [wlanframesync_execute_seekplcp] *)
Definition wlanframesync_execute_seekplcp (q : wlanframesync) : wlanframesync :=
  let q := set_timer q (timer q + 1) in
  if (timer q <? 64)%Z then q else
  let q := set_timer q 0 in
  let rc := input_buffer q in
  let g := energy (skipn 16 rc) in
  let g := 64 / (g + 0.000001) in
  let q := set_G0a q (wlanframesync_estimate_gain_S0 (skipn 16 rc)) in
  let s_hat := Cscale g (wlanframesync_S0_metrics (G0a q)) in
  emit q (EvSeekReport g s_hat).

(** The remaining handlers are empty in the source. *)
Definition wlanframesync_execute_rxshort0 (q : wlanframesync) : wlanframesync := q.
Definition wlanframesync_execute_rxshort1 (q : wlanframesync) : wlanframesync := q.
Definition wlanframesync_execute_rxlong0 (q : wlanframesync) : wlanframesync := q.
Definition wlanframesync_execute_rxlong1 (q : wlanframesync) : wlanframesync := q.
Definition wlanframesync_execute_rxsignal (q : wlanframesync) : wlanframesync := q.
Definition wlanframesync_execute_rxdata (q : wlanframesync) : wlanframesync := q.

(** First half of the loop body of [wlanframesync_execute]: mix down by the
    NCO (and step it) unless in SEEK_PLCP, then push into the input
    buffer. *)
Definition push_sample (q : wlanframesync) (x : C) : wlanframesync :=
  if (state q =? WLANFRAMESYNC_STATE_SEEKPLCP)%Z then
    set_buffer q (windowcf_push (input_buffer q) x)
  else
    let x' := nco_crcf_mix_down (nco_rx q) x in
    let q := set_nco q (nco_crcf_step (nco_rx q)) in
    set_buffer q (windowcf_push (input_buffer q) x').

(** Second half: the [switch] on the state; the [default] branch prints an
    error and calls [exit(1)], modelled as [None]. *)
Definition dispatch (q : wlanframesync) : option wlanframesync :=
  match state q with
  | 0%Z => Some (wlanframesync_execute_seekplcp q)
  | 1%Z => Some (wlanframesync_execute_rxshort0 q)
  | 2%Z => Some (wlanframesync_execute_rxshort1 q)
  | 3%Z => Some (wlanframesync_execute_rxlong0 q)
  | 4%Z => Some (wlanframesync_execute_rxlong1 q)
  | 5%Z => Some (wlanframesync_execute_rxsignal q)
  | 6%Z => Some (wlanframesync_execute_rxdata q)
  | _ => None
  end.

Definition step (q : wlanframesync) (x : C) : option wlanframesync :=
  dispatch (push_sample q x).

(** [wlanframesync_execute(q, buffer, n)]: the [for] loop over the buffer. *)
Fixpoint wlanframesync_execute (q : wlanframesync) (buf : list C)
  : option wlanframesync :=
  match buf with
  | [] => Some q
  | x :: r =>
      match step q x with
      | Some q' => wlanframesync_execute q' r
      | None => None
      end
  end.

(** States the object can be in: created, then driven by any sequence of
    [wlanframesync_execute] and [wlanframesync_reset] calls. *)
Inductive reachable : wlanframesync -> Prop :=
| reach_create : forall g0, reachable (wlanframesync_create g0)
| reach_execute : forall q buf q',
    reachable q -> wlanframesync_execute q buf = Some q' -> reachable q'
| reach_reset : forall q, reachable q -> reachable (wlanframesync_reset q).


(** Detection criterion of the spec's SEEK_PLCP paragraph, on the metric
    [s_hat] and the window energy [g] that the handler computes. *)
Definition detect_criterion (detect_threshold squelch_floor : R) (s_hat : C)
  (g : R) : Prop :=
  detect_threshold < Cabs s_hat /\ squelch_floor < g.

(** The metric as the spec words it: the sum over the 12 non-null S0 bins
    of G[k+4] * conj(G[k]), the bin after 24 being 40 and the bin after 60
    being 4 (wrapping across the two clusters). *)
Definition S0_bins : list nat := [4; 8; 12; 16; 20; 24; 40; 44; 48; 52; 56; 60]%nat.

Definition next_S0_bin (k : nat) : nat :=
  match k with
  | 24%nat => 40%nat
  | 60%nat => 4%nat
  | _ => (k + 4)%nat
  end.

Definition S0_metrics_spec (G : list C) : C :=
  fold_left (fun s k => Cadd s (Cmul (get G (next_S0_bin k)) (Cconj (get G k))))
            S0_bins C0.

(** The gain estimate as the spec words it, with the exact factor
    sqrt(12)/64. *)
Definition estimate_gain_S0_spec (x : list C) (k : nat) : C :=
  Cscale (sqrt 12 / 64)
    (Cmul (dft (firstn 64 x) k) (Cconj (get wlanframe_S0 k))).

(** Events printed by the SEEK_PLCP handler (as opposed to callbacks). *)
Definition is_report (e : event) : bool :=
  match e with EvSeekReport _ _ => true | EvCallback _ _ _ _ => false end.

(** ** Concrete inputs *)

(** A unit impulse at the first sample of the transform window. *)
Definition impulse64 : list C := C1 :: repeat C0 63.

(** A 64-sample input: 4+4j at sample 0 and -4+4j at sample 8, zero
    elsewhere (average power 1).  On the S0 bins its transform is 8 on the
    bins 4k with k odd and 8j on those with k even. *)
Definition det_a0 : C := mkC 4 4.
Definition det_a2 : C := mkC (-4) 4.
Definition det_window : list C := det_a0 :: repeat C0 7 ++ det_a2 :: repeat C0 55.
Definition det_first63 : list C := det_a0 :: repeat C0 7 ++ det_a2 :: repeat C0 54.

(** ** Small examples *)

Example reset_state_example :
  state (wlanframesync_reset (mkSync 5 17 [] nco_crcf_create [] [])) = 0%Z.
Proof. reflexivity. Qed.

Example seekplcp_counts_example :
  timer (wlanframesync_execute_seekplcp (wlanframesync_create [])) = 1%Z.
Proof. reflexivity. Qed.

Example window_push_length_example :
  length (windowcf_push windowcf_clear C1) = 80%nat.
Proof. reflexivity. Qed.

(** ** General lemmas *)

Lemma execute_app : forall a b q,
  wlanframesync_execute q (a ++ b) =
  match wlanframesync_execute q a with
  | Some q' => wlanframesync_execute q' b
  | None => None
  end.
Proof.
  induction a as [|x a IH]; intros b q; simpl; [reflexivity|].
  destruct (step q x); [apply IH | reflexivity].
Qed.

(** The SEEK_PLCP handler never writes [state], [nco_rx] or the buffer. *)
Lemma seekplcp_fields : forall q,
  state (wlanframesync_execute_seekplcp q) = state q /\
  nco_rx (wlanframesync_execute_seekplcp q) = nco_rx q /\
  input_buffer (wlanframesync_execute_seekplcp q) = input_buffer q.
Proof.
  intros q. unfold wlanframesync_execute_seekplcp.
  destruct (_ <? _)%Z; simpl; auto.
Qed.

Lemma step_seek : forall q x,
  state q = WLANFRAMESYNC_STATE_SEEKPLCP ->
  exists q', step q x = Some q' /\ state q' = state q /\ nco_rx q' = nco_rx q.
Proof.
  intros q x Hs. unfold step, push_sample. rewrite Hs. simpl.
  unfold dispatch. simpl. rewrite Hs.
  eexists; split; [reflexivity|].
  destruct (seekplcp_fields (set_buffer q (windowcf_push (input_buffer q) x)))
    as [H1 [H2 _]].
  rewrite H1, H2. simpl. split; auto.
Qed.

Lemma execute_seek : forall buf q,
  state q = WLANFRAMESYNC_STATE_SEEKPLCP ->
  exists q', wlanframesync_execute q buf = Some q' /\
             state q' = WLANFRAMESYNC_STATE_SEEKPLCP /\ nco_rx q' = nco_rx q.
Proof.
  induction buf as [|x buf IH]; intros q Hs; simpl.
  - eauto.
  - destruct (step_seek q x Hs) as [q1 [E [Hs1 Hn1]]]. rewrite E.
    destruct (IH q1) as [q2 [E2 [Hs2 Hn2]]]; [congruence|].
    exists q2. repeat split; congruence.
Qed.

(** Every reachable object is in SEEK_PLCP with a zero NCO. *)
Lemma reachable_inv : forall q, reachable q ->
  state q = WLANFRAMESYNC_STATE_SEEKPLCP /\ nco_rx q = nco_crcf_create.
Proof.
  induction 1 as [g0| q buf q' _ [Hs Hn] E | q _ [Hs Hn]].
  - split; reflexivity.
  - destruct (execute_seek buf q Hs) as [q2 [E2 [Hs2 Hn2]]].
    rewrite E in E2. injection E2 as <-. split; congruence.
  - split; [reflexivity | exact Hn].
Qed.

(** ** Claims about the sample path, reset and accessors *)

(** C4: processing a buffer [a ++ b] in one call equals processing [a] and
    then [b] (same final object, hence same trace of reports and callbacks);
    and one call on a buffer is the in-order sequence of single-sample
    steps. *)
Theorem execute_concat_sequential : forall q a b,
  wlanframesync_execute q (a ++ b) =
    match wlanframesync_execute q a with
    | Some q' => wlanframesync_execute q' b
    | None => None
    end /\
  wlanframesync_execute q (a ++ b) =
    fold_left (fun o x => match o with Some q1 => step q1 x | None => None end)
              (a ++ b) (Some q).
Proof.
  intros q a b. split; [apply execute_app|].
  generalize (a ++ b) as l. clear a b.
  assert (Hnone : forall l, fold_left (fun o x => match o with
                       | Some q1 => step q1 x | None => None end) l None = None).
  { induction l; simpl; auto. }
  intros l. revert q. induction l as [|x l IH]; intros q; simpl; [reflexivity|].
  destruct (step q x); [apply IH | symmetry; apply Hnone].
Qed.

(** C5: the sample is mixed down by the NCO, and the NCO stepped, before it
    is buffered exactly when the state is not SEEK_PLCP; in SEEK_PLCP the
    raw sample is buffered and the NCO is untouched.  The handler then runs
    on the object so updated. *)
Theorem execute_mixes_unless_seek : forall q x,
  step q x = dispatch (push_sample q x) /\
  input_buffer (push_sample q x) =
    windowcf_push (input_buffer q)
      (if (state q =? WLANFRAMESYNC_STATE_SEEKPLCP)%Z then x
       else nco_crcf_mix_down (nco_rx q) x) /\
  nco_rx (push_sample q x) =
    (if (state q =? WLANFRAMESYNC_STATE_SEEKPLCP)%Z then nco_rx q
     else nco_crcf_step (nco_rx q)).
Proof.
  intros q x. split; [reflexivity|]. unfold push_sample.
  destruct (state q =? WLANFRAMESYNC_STATE_SEEKPLCP)%Z; simpl; auto.
Qed.



(** C7: from any object, [wlanframesync_reset] clears the input buffer and
    the timer, sets SEEK_PLCP, and emits nothing (no callback). *)
Theorem reset_discards_frame : forall q,
  input_buffer (wlanframesync_reset q) = windowcf_clear /\
  timer (wlanframesync_reset q) = 0%Z /\
  state (wlanframesync_reset q) = WLANFRAMESYNC_STATE_SEEKPLCP /\
  trace (wlanframesync_reset q) = trace q.
Proof. intros q. repeat split. Qed.

(** C8: on every reachable object and every buffer, the state dispatch of
    [wlanframesync_execute] always selects a handler: the invalid-state
    branch ([exit(1)]) is never taken. *)
Theorem execute_never_fails : forall q buf, reachable q ->
  wlanframesync_execute q buf <> None.
Proof.
  intros q buf Hr. destruct (reachable_inv q Hr) as [Hs _].
  destruct (execute_seek buf q Hs) as [q' [E _]]. rewrite E. discriminate.
Qed.

Lemma execute_never_fails_witness :
  reachable (wlanframesync_create []) /\
  wlanframesync_execute (wlanframesync_create []) [C1; C0; C1] <> None.
Proof.
  split; [apply reach_create|].
  apply (execute_never_fails (wlanframesync_create []) [C1; C0; C1]).
  apply reach_create.
Defined.

(** C9: Table G.3 has period 16: entry i equals entry i+16 for i < 48. *)
Theorem annexg_G3_period16 : forall i, (i < 48)%nat ->
  nth i annexg_G3 (0%Q, 0%Q) = nth (i + 16) annexg_G3 (0%Q, 0%Q).
Proof.
  intros i Hi.
  do 48 (destruct i as [|i]; [reflexivity|]). lia.
Qed.

Lemma annexg_G3_period16_witness :
  (5 < 48)%nat /\ nth 5 annexg_G3 (0%Q, 0%Q) = nth (5 + 16) annexg_G3 (0%Q, 0%Q).
Proof. split; [lia | apply annexg_G3_period16; lia]. Defined.

(** C10: the RSSI and CFO accessors return 0 on every object. *)
Theorem get_rssi_cfo_zero : forall q,
  wlanframesync_get_rssi q = 0 /\ wlanframesync_get_cfo q = 0.
Proof. intros q. split; reflexivity. Qed.

(** ** Claims about the SEEK_PLCP estimators *)

Lemma C_ext : forall a b : C, re a = re b -> im a = im b -> a = b.
Proof. intros [] [] H1 H2. simpl in *. subst. reflexivity. Qed.

Lemma re_Cadd : forall a b, re (Cadd a b) = re a + re b. Proof. reflexivity. Qed.
Lemma im_Cadd : forall a b, im (Cadd a b) = im a + im b. Proof. reflexivity. Qed.
Lemma re_Cmul : forall a b, re (Cmul a b) = re a * re b - im a * im b.
Proof. reflexivity. Qed.
Lemma im_Cmul : forall a b, im (Cmul a b) = re a * im b + im a * re b.
Proof. reflexivity. Qed.
Lemma re_Cscale : forall r a, re (Cscale r a) = r * re a. Proof. reflexivity. Qed.
Lemma im_Cscale : forall r a, im (Cscale r a) = r * im a. Proof. reflexivity. Qed.
Lemma re_Cconj : forall a, re (Cconj a) = re a. Proof. reflexivity. Qed.
Lemma im_Cconj : forall a, im (Cconj a) = - im a. Proof. reflexivity. Qed.
Lemma re_acc : forall G s a b,
  re (acc G s a b) = re s + re (Cmul (get G a) (Cconj (get G b))).
Proof. reflexivity. Qed.
Lemma im_acc : forall G s a b,
  im (acc G s a b) = im s + im (Cmul (get G a) (Cconj (get G b))).
Proof. reflexivity. Qed.
Lemma re_mkC : forall x y, re (mkC x y) = x. Proof. reflexivity. Qed.
Lemma im_mkC : forall x y, im (mkC x y) = y. Proof. reflexivity. Qed.
Lemma re_C0 : re C0 = 0. Proof. reflexivity. Qed.
Lemma im_C0 : im C0 = 0. Proof. reflexivity. Qed.
Lemma re_C1 : re C1 = 1. Proof. reflexivity. Qed.
Lemma im_C1 : im C1 = 0. Proof. reflexivity. Qed.

Create Rewrite HintDb cproj.
#[export] Hint Rewrite re_Cadd im_Cadd re_Cmul im_Cmul re_Cscale im_Cscale
  re_Cconj im_Cconj re_acc im_acc re_mkC im_mkC re_C0 im_C0 re_C1 im_C1 : cproj.

(** Component-wise normal form of a complex expression, without unfolding
    the operations (which would duplicate nested sums). *)
Ltac C_unfold := cbv zeta in *; autorewrite with cproj in *.

(** C2 (as stated): the 12-term wrapped sum.  The compiled metric differs
    from it already on a gain vector of ones. *)
Lemma S0_metrics_not_12_terms :
  wlanframesync_S0_metrics (repeat C1 64) <> S0_metrics_spec (repeat C1 64).
Proof.
  intros H. apply (f_equal re) in H.
  unfold wlanframesync_S0_metrics, S0_metrics_spec, S0_bins in H.
  cbn [fold_left next_S0_bin Nat.add] in H. C_unfold.
  unfold get in H. cbn [nth repeat] in H. autorewrite with cproj in H. lra.
Qed.

(** C2 (amended): the metric is 0.1 times the sum of the 10 products
    G[k+4] * conj(G[k]) for consecutive bins inside each cluster,
    k in {4,...,20} and {40,...,56}; no product links 24 to 40 or 60 to
    4. *)
Theorem S0_metrics_ten_terms : forall G,
  wlanframesync_S0_metrics G =
  Cscale 0.1
    (fold_left (fun s k => Cadd s (Cmul (get G (k + 4)) (Cconj (get G k))))
               [4; 8; 12; 16; 20; 40; 44; 48; 52; 56]%nat C0).
Proof.
  intros G. unfold wlanframesync_S0_metrics. cbn [fold_left Nat.add].
  apply C_ext; C_unfold; ring.
Qed.

Lemma get_map_seq : forall (f : nat -> C) n k, (k < n)%nat ->
  get (map f (seq 0 n)) k = f k.
Proof.
  intros f n k Hk. unfold get.
  rewrite nth_indep with (d' := f 0%nat) by (rewrite length_map, length_seq; lia).
  rewrite map_nth, seq_nth by lia. reflexivity.
Qed.

(** Per-bin value of [wlanframesync_estimate_gain_S0] on the 12 bins. *)
Lemma estimate_gain_S0_bins : forall x,
  Forall (fun k => get (wlanframesync_estimate_gain_S0 x) k =
                   Cscale gain_S0 (Cmul (dft (firstn 64 x) k)
                                        (Cconj (get wlanframe_S0 k))))
         S0_bins.
Proof.
  intros x. unfold S0_bins.
  repeat constructor; unfold wlanframesync_estimate_gain_S0, S0_bin_gain;
    cbv zeta; unfold get at 1; simpl nth;
    rewrite get_map_seq by lia; reflexivity.
Qed.

Lemma tw_0 : tw 0 = C1.
Proof.
  unfold tw, cexpj, C1. simpl INR.
  replace (- (2 * PI * 0 / 64)) with 0 by field.
  rewrite cos_0, sin_0. reflexivity.
Qed.

Lemma dft_sum_zeros : forall m k n, dft_sum (repeat C0 m) k n = C0.
Proof.
  induction m as [|m IH]; intros k n; simpl; [reflexivity|].
  rewrite IH. apply C_ext; C_unfold; ring.
Qed.

Lemma sqrt12_ne_gain : sqrt 12 / 64 <> gain_S0.
Proof.
  unfold gain_S0. intros H.
  assert (E : sqrt 12 = 64 * 0.054127) by lra.
  pose proof (sqrt_sqrt 12) as S. rewrite E in S. lra.
Qed.

Lemma S0_amp_pos : 0 < S0_amp.
Proof. unfold S0_amp. apply sqrt_lt_R0. lra. Qed.

(** C3 (as stated): with the exact factor sqrt(12)/64 the estimate differs
    from the one the code computes, already on bin 4 for an impulse. *)
Lemma estimate_gain_S0_not_sqrt12 :
  get (wlanframesync_estimate_gain_S0 impulse64) 4 <>
  estimate_gain_S0_spec impulse64 4.
Proof.
  pose proof (estimate_gain_S0_bins impulse64) as HF.
  unfold S0_bins in HF. inversion HF as [|k l H4 _]; subst.
  rewrite H4. unfold estimate_gain_S0_spec.
  assert (HX : dft (firstn 64 impulse64) 4 = C1).
  { replace (firstn 64 impulse64) with impulse64 by reflexivity.
    unfold dft, impulse64. cbn [dft_sum].
    rewrite dft_sum_zeros, Nat.mul_0_r, tw_0. apply C_ext; C_unfold; ring. }
  rewrite HX. intros H. apply (f_equal im) in H.
  unfold get, wlanframe_S0, S0m in H. cbn [nth] in H. C_unfold.
  pose proof S0_amp_pos. pose proof sqrt12_ne_gain.
  apply H1. apply Rmult_eq_reg_r with S0_amp; [|lra].
  unfold gain_S0 in *. lra.
Qed.

(** The source's constant 0.054127 is sqrt(12)/64 rounded to five
    significant digits. *)
Lemma gain_S0_close : Rabs (gain_S0 - sqrt 12 / 64) < 0.000001.
Proof.
  unfold gain_S0. pose proof (sqrt_sqrt 12) as S. pose proof (sqrt_pos 12).
  apply Rabs_def1; nra.
Qed.

(** C3 (amended): when the SEEK_PLCP handler fires (every 64th call) it
    stores in G0a the gain estimate of the 64 buffered samples at positions
    [16..80), and on each of the 12 non-null S0 bins that estimate is
    X[k] * conj(S0[k]) * 0.054127 (the source's decimal constant for
    sqrt(12)/64, from which it differs by less than 1e-6), X being the
    64-point DFT of those samples; on the other calls G0a is left as it
    was. *)
Theorem seekplcp_gain_S0 : forall q,
  Rabs (0.054127 - sqrt 12 / 64) < 0.000001 /\
  G0a (wlanframesync_execute_seekplcp q) =
    (if (timer q + 1 <? 64)%Z then G0a q
     else wlanframesync_estimate_gain_S0 (skipn 16 (input_buffer q))) /\
  Forall (fun k =>
    get (wlanframesync_estimate_gain_S0 (skipn 16 (input_buffer q))) k =
    Cscale 0.054127
      (Cmul (dft (firstn 64 (skipn 16 (input_buffer q))) k)
            (Cconj (get wlanframe_S0 k)))) S0_bins.
Proof.
  intros q. split; [exact gain_S0_close|]. split.
  - unfold wlanframesync_execute_seekplcp. simpl.
    destruct (timer q + 1 <? 64)%Z; reflexivity.
  - apply estimate_gain_S0_bins.
Qed.

(** ** SEEK_PLCP on a concrete input *)

Lemma window_fill : forall xs, (length xs <= 80)%nat ->
  fold_left windowcf_push xs windowcf_clear = repeat C0 (80 - length xs) ++ xs.
Proof.
  induction xs as [|x xs IH] using rev_ind; intros Hl; [reflexivity|].
  rewrite length_app in Hl. cbn [length] in Hl.
  rewrite fold_left_app, IH by lia. cbn [fold_left]. unfold windowcf_push.
  rewrite length_app. cbn [length].
  replace (80 - length xs)%nat with (S (80 - (length xs + 1)))%nat by lia.
  cbn [repeat tl app]. rewrite <- app_assoc. reflexivity.
Qed.

Lemma step_seek_count : forall q x,
  state q = WLANFRAMESYNC_STATE_SEEKPLCP -> (timer q + 1 < 64)%Z ->
  step q x = Some (mkSync (state q) (timer q + 1)
                          (windowcf_push (input_buffer q) x)
                          (nco_rx q) (G0a q) (trace q)).
Proof.
  intros [st ti b n g tr] x Hs Ht. cbn [state timer] in *. subst st.
  apply Z.ltb_lt in Ht. unfold step, push_sample, dispatch,
  wlanframesync_execute_seekplcp. cbn -[windowcf_push Z.add Z.ltb].
  rewrite Ht. reflexivity.
Qed.

Lemma execute_seek_count : forall xs q,
  state q = WLANFRAMESYNC_STATE_SEEKPLCP ->
  (timer q + Z.of_nat (length xs) < 64)%Z ->
  wlanframesync_execute q xs =
  Some (mkSync (state q) (timer q + Z.of_nat (length xs))
               (fold_left windowcf_push xs (input_buffer q))
               (nco_rx q) (G0a q) (trace q)).
Proof.
  induction xs as [|x xs IH]; intros q Hs Ht; cbn [wlanframesync_execute].
  - rewrite Z.add_0_r. destruct q; reflexivity.
  - cbn [length] in Ht. rewrite step_seek_count by (auto; lia).
    rewrite IH by (cbn [state timer]; auto; lia). cbn [state timer input_buffer
    nco_rx G0a trace fold_left length]. f_equal. f_equal. lia.
Qed.

Lemma energy_zeros : forall m a,
  fold_left (fun g x => g + (re x * re x + im x * im x)) (repeat C0 m) a = a.
Proof.
  induction m as [|m IH]; intros a; cbn [repeat fold_left]; [reflexivity|].
  rewrite IH. rewrite re_C0, im_C0. ring.
Qed.

Lemma dft_sum_zeros_app : forall m r k n,
  dft_sum (repeat C0 m ++ r) k n = dft_sum r k (n + m).
Proof.
  induction m as [|m IH]; intros r k n; cbn [repeat app dft_sum].
  - rewrite Nat.add_0_r. reflexivity.
  - rewrite IH. replace (n + S m)%nat with (S n + m)%nat by lia.
    apply C_ext; autorewrite with cproj; ring.
Qed.

Lemma INR_32 : INR 32 = 32.
Proof. rewrite INR_IZR_INZ. reflexivity. Qed.

Lemma tw_mod0 : forall j, (j mod 64 = 0)%nat -> tw j = C1.
Proof.
  intros j H. unfold tw. rewrite H. apply tw_0.
Qed.

Lemma tw_mod32 : forall j, (j mod 64 = 32)%nat -> tw j = mkC (-1) 0.
Proof.
  intros j H. unfold tw, cexpj. rewrite H, INR_32.
  replace (- (2 * PI * 32 / 64)) with (- PI) by field.
  rewrite cos_neg, sin_neg, cos_PI, sin_PI. f_equal. ring.
Qed.

Lemma dft_det_window : forall k,
  dft det_window k = Cadd det_a0 (Cmul det_a2 (tw (k * 8))).
Proof.
  intros k. unfold dft, det_window. cbn [dft_sum app].
  rewrite dft_sum_zeros_app. cbn [dft_sum Nat.add].
  change (repeat C0 55) with (repeat C0 55 ++ []).
  rewrite dft_sum_zeros_app, Nat.mul_0_r, tw_0. cbn [dft_sum].
  apply C_ext; autorewrite with cproj; ring.
Qed.

Lemma energy_det_window : energy det_window = 64.
Proof.
  unfold energy, det_window. cbn [fold_left app].
  rewrite fold_left_app. cbn [fold_left]. rewrite !energy_zeros.
  unfold det_a0, det_a2. autorewrite with cproj. ring.
Qed.

Lemma execute_det_window :
  wlanframesync_execute (wlanframesync_create []) det_window =
  Some (wlanframesync_execute_seekplcp
          (mkSync WLANFRAMESYNC_STATE_SEEKPLCP 63 (repeat C0 16 ++ det_window)
                  nco_crcf_create [] [])).
Proof.
  replace det_window with (det_first63 ++ [C0]) at 1 by reflexivity.
  rewrite execute_app, execute_seek_count by (cbn; lia).
  cbn [wlanframesync_execute]. unfold step, push_sample, dispatch.
  cbn -[windowcf_push wlanframesync_execute_seekplcp windowcf_clear fold_left det_first63].
  rewrite window_fill by (cbn; lia).
  do 3 f_equal.
Qed.

Lemma Cabs_gt : forall t s, 0 <= t ->
  t * t < re s * re s + im s * im s -> t < Cabs s.
Proof.
  intros t s Ht H. unfold Cabs.
  destruct (Rlt_or_le t (sqrt (re s * re s + im s * im s))) as [Hl|Hl]; [exact Hl|].
  exfalso. pose proof (sqrt_pos (re s * re s + im s * im s)).
  rewrite <- (sqrt_sqrt (re s * re s + im s * im s)) in H by nra. nra.
Qed.

(** C1 (as stated): on the input [det_window] fed to a fresh object, the
    64th sample fires the SEEK_PLCP handler, whose metric s_hat has
    |s_hat| > 0.3 (the spec's example threshold) with nonzero window energy
    (the squelch is compiled out), yet the object stays in SEEK_PLCP. *)
Lemma seek_detects_without_transition :
  exists q', wlanframesync_execute (wlanframesync_create []) det_window = Some q' /\
  state q' = WLANFRAMESYNC_STATE_SEEKPLCP /\
  exists g s_hat, trace q' = [EvSeekReport g s_hat] /\
    detect_criterion 0.3 0 s_hat (energy (skipn 16 (input_buffer q'))).
Proof.
  eexists; split; [apply execute_det_window|].
  unfold wlanframesync_execute_seekplcp.
  cbn [timer set_timer set_buffer set_G0a state input_buffer].
  replace (63 + 1 <? 64)%Z with false by reflexivity.
  cbn [state emit set_G0a set_timer trace input_buffer G0a app].
  split; [reflexivity|]. eexists _, _. split; [reflexivity|].
  change (skipn 16 (repeat C0 16 ++ det_window)) with det_window.
  rewrite energy_det_window. split; [|lra].
  pose proof (estimate_gain_S0_bins det_window) as HF. rewrite Forall_forall in HF.
  set (G := wlanframesync_estimate_gain_S0 det_window) in *.
  apply Cabs_gt; [lra|].
  unfold wlanframesync_S0_metrics. C_unfold.
  repeat match goal with
         | |- context [get G ?k] => rewrite (HF k) by (cbn; tauto)
         end.
  replace (firstn 64 det_window) with det_window by reflexivity.
  rewrite !dft_det_window.
  repeat match goal with
         | |- context [tw ?j] =>
             first [ rewrite (tw_mod0 j) by reflexivity
                   | rewrite (tw_mod32 j) by reflexivity ]
         end.
  unfold get, wlanframe_S0. cbn [nth].
  unfold S0p, S0m, det_a0, det_a2. autorewrite with cproj.
  pose proof (sqrt_sqrt (13 / 6)) as Hs. fold S0_amp in Hs.
  match goal with
  | |- _ < ?a * ?a + ?b * ?b =>
      assert (Ha : a = 0) by ring;
      assert (Hb : b = 64 / (64 + 0.000001) * 0.1 *
                       (768 * gain_S0 * gain_S0 * (S0_amp * S0_amp))) by ring
  end.
  rewrite Ha, Hb, Hs by lra. unfold gain_S0.
  assert (Hg : 0.99 < 64 / (64 + 0.000001)).
  { apply Rmult_lt_reg_r with (64 + 0.000001); [lra|].
    unfold Rdiv. rewrite Rmult_assoc, Rinv_l by lra. lra. }
  nra.
Qed.

(** ** Further properties of the sample path *)

Lemma energy_fold_nonneg : forall xs a, 0 <= a ->
  0 <= fold_left (fun g x => g + (re x * re x + im x * im x)) xs a.
Proof.
  induction xs as [|x xs IH]; intros a Ha; cbn [fold_left]; [exact Ha|].
  apply IH. pose proof (Rle_0_sqr (re x)). pose proof (Rle_0_sqr (im x)).
  unfold Rsqr in *. lra.
Qed.

(** One call of the SEEK_PLCP handler: either it only counts, or it resets
    the timer and appends exactly one report, whose gain is positive and at
    most 64 / 1e-6. *)
Lemma seekplcp_cases : forall q,
  input_buffer (wlanframesync_execute_seekplcp q) = input_buffer q /\
  state (wlanframesync_execute_seekplcp q) = state q /\
  nco_rx (wlanframesync_execute_seekplcp q) = nco_rx q /\
  ((timer q + 1 < 64)%Z /\
   timer (wlanframesync_execute_seekplcp q) = (timer q + 1)%Z /\
   trace (wlanframesync_execute_seekplcp q) = trace q
   \/
   (64 <= timer q + 1)%Z /\
   timer (wlanframesync_execute_seekplcp q) = 0%Z /\
   exists g s_hat, trace (wlanframesync_execute_seekplcp q) =
                   trace q ++ [EvSeekReport g s_hat] /\ 0 < g <= 64000000).
Proof.
  intros q. unfold wlanframesync_execute_seekplcp.
  cbn [timer set_timer].
  destruct (timer q + 1 <? 64)%Z eqn:E.
  - apply Z.ltb_lt in E. cbn. repeat split; auto.
  - apply Z.ltb_ge in E. cbn [state input_buffer nco_rx timer trace emit
      set_G0a set_timer]. repeat split; auto. right. split; [lia|split; [reflexivity|]].
    eexists _, _. split; [reflexivity|].
    pose proof (energy_fold_nonneg (skipn 16 (input_buffer q)) 0 (Rle_refl 0)).
    fold (energy (skipn 16 (input_buffer q))) in H.
    split.
    + apply Rdiv_lt_0_compat; lra.
    + apply Rmult_le_reg_r with (energy (skipn 16 (input_buffer q)) + 0.000001);
        [lra|]. unfold Rdiv. rewrite Rmult_assoc, Rinv_l by lra. nra.
Qed.

Lemma push_skipn : forall (B : list C) x r, B <> [] ->
  (windowcf_push B x) ++ r = skipn 1 (B ++ x :: r).
Proof.
  intros [|b B] x r H; [congruence|]. unfold windowcf_push. cbn.
  rewrite <- app_assoc. reflexivity.
Qed.

(** Executing any buffer from SEEK_PLCP with an in-range timer and a full
    window. *)
Lemma execute_seek_full : forall buf q,
  state q = WLANFRAMESYNC_STATE_SEEKPLCP ->
  (0 <= timer q < 64)%Z -> length (input_buffer q) = 80%nat ->
  exists q' reports,
    wlanframesync_execute q buf = Some q' /\
    state q' = WLANFRAMESYNC_STATE_SEEKPLCP /\
    nco_rx q' = nco_rx q /\
    timer q' = ((timer q + Z.of_nat (length buf)) mod 64)%Z /\
    input_buffer q' = skipn (length buf) (input_buffer q ++ buf) /\
    trace q' = trace q ++ reports /\
    Z.of_nat (length reports) = ((timer q + Z.of_nat (length buf)) / 64)%Z /\
    Forall (fun e => is_report e = true) reports.
Proof.
  induction buf as [|x buf IH]; intros q Hs Ht Hl.
  - exists q, []. cbn. rewrite !app_nil_r, Z.add_0_r, Z.mod_small, Z.div_small by lia.
    repeat split; auto.
  - cbn [wlanframesync_execute]. unfold step.
    assert (Hp : push_sample q x = set_buffer q (windowcf_push (input_buffer q) x)).
    { unfold push_sample. rewrite Hs. reflexivity. }
    rewrite Hp. unfold dispatch. cbn [state set_buffer]. rewrite Hs.
    cbn [WLANFRAMESYNC_STATE_SEEKPLCP].
    set (q1 := set_buffer q (windowcf_push (input_buffer q) x)).
    destruct (seekplcp_cases q1) as [Hb [Hs1 [Hn1 Hc]]].
    assert (Eq1 : timer q1 = timer q /\ trace q1 = trace q /\ nco_rx q1 = nco_rx q
                  /\ state q1 = state q) by (repeat split).
    destruct Eq1 as [Et [Etr [En Es]]]. rewrite Et, Etr in Hc. rewrite En in Hn1.
    rewrite Es in Hs1.
    assert (Hl1 : length (input_buffer (wlanframesync_execute_seekplcp q1)) = 80%nat).
    { rewrite Hb. cbn. unfold windowcf_push. rewrite length_app.
      destruct (input_buffer q); cbn in *; lia. }
    assert (HB : input_buffer (wlanframesync_execute_seekplcp q1) ++ buf =
                 skipn 1 (input_buffer q ++ x :: buf)).
    { rewrite Hb. apply push_skipn. intros E. rewrite E in Hl. discriminate. }
    cbn [length]. rewrite Nat2Z.inj_succ.
    destruct Hc as [[Ht1 [Htm Htr]] | [Ht1 [Htm [g [sh [Htr _]]]]]].
    + destruct (IH (wlanframesync_execute_seekplcp q1)) as
        [q' [r [E [Hs' [Hn' [Ht' [Hb' [Htr' [Hr Hf]]]]]]]]];
        [rewrite Hs1; exact Hs | rewrite Htm; lia | exact Hl1|].
      exists q', r. rewrite E. rewrite Hn1, Htr in *. rewrite Htm in *.
      repeat split; auto.
      * rewrite Ht'. f_equal. lia.
      * rewrite Hb', HB, skipn_skipn. f_equal. lia.
      * rewrite Hr. f_equal. lia.
    + destruct (IH (wlanframesync_execute_seekplcp q1)) as
        [q' [r [E [Hs' [Hn' [Ht' [Hb' [Htr' [Hr Hf]]]]]]]]];
        [rewrite Hs1; exact Hs | rewrite Htm; lia | exact Hl1|].
      exists q', (EvSeekReport g sh :: r). rewrite E. rewrite Hn1 in *.
      repeat split; auto.
      * rewrite Ht', Htm.
        replace (timer q + Z.succ (Z.of_nat (length buf)))%Z
          with (Z.of_nat (length buf) + 1 * 64)%Z by lia.
        rewrite Z.mod_add by lia. f_equal.
      * rewrite Hb', HB, skipn_skipn. f_equal. lia.
      * rewrite Htr', Htr. cbn. rewrite <- app_assoc. reflexivity.
      * cbn [length]. rewrite Nat2Z.inj_succ, Hr, Htm.
        replace (timer q + Z.succ (Z.of_nat (length buf)))%Z
          with (Z.of_nat (length buf) + 1 * 64)%Z by lia.
        rewrite Z.div_add by lia. rewrite Z.add_0_l. lia.
Qed.

(** C1 (amended): the SEEK_PLCP handler makes no detection decision.  From
    any object in SEEK_PLCP (timer in [0, 64), full window), whatever the
    samples, [wlanframesync_execute] leaves it in SEEK_PLCP with its NCO
    untouched (no CFO stored, NCO not armed).  Its only output is one
    report of g and s_hat per 64 samples: the call appends exactly
    (timer + n) / 64 events, all of them reports and no callback, and
    leaves the timer at (timer + n) mod 64. *)
Theorem seekplcp_stays_seeking : forall q buf,
  state q = WLANFRAMESYNC_STATE_SEEKPLCP ->
  (0 <= timer q < 64)%Z -> length (input_buffer q) = 80%nat ->
  exists q' reports,
    wlanframesync_execute q buf = Some q' /\
    state q' = WLANFRAMESYNC_STATE_SEEKPLCP /\ nco_rx q' = nco_rx q /\
    trace q' = trace q ++ reports /\
    Z.of_nat (length reports) = ((timer q + Z.of_nat (length buf)) / 64)%Z /\
    (forall e, In e reports -> is_report e = true) /\
    timer q' = ((timer q + Z.of_nat (length buf)) mod 64)%Z.
Proof.
  intros q buf Hs Ht Hl.
  destruct (execute_seek_full buf q Hs Ht Hl) as
    [q' [r [E [Hs' [Hn' [Ht' [_ [Htr [Hr Hf]]]]]]]]].
  exists q', r. repeat split; auto.
  apply Forall_forall. exact Hf.
Qed.

Lemma seekplcp_stays_seeking_witness :
  state (wlanframesync_create []) = WLANFRAMESYNC_STATE_SEEKPLCP /\
  (0 <= timer (wlanframesync_create []) < 64)%Z /\
  length (input_buffer (wlanframesync_create [])) = 80%nat /\
  exists q' reports,
    wlanframesync_execute (wlanframesync_create []) det_window = Some q' /\
    state q' = WLANFRAMESYNC_STATE_SEEKPLCP /\
    nco_rx q' = nco_rx (wlanframesync_create []) /\
    trace q' = trace (wlanframesync_create []) ++ reports /\
    Z.of_nat (length reports) =
      ((timer (wlanframesync_create []) + Z.of_nat (length det_window)) / 64)%Z /\
    (forall e, In e reports -> is_report e = true) /\
    timer q' =
      ((timer (wlanframesync_create []) + Z.of_nat (length det_window)) mod 64)%Z.
Proof.
  split; [reflexivity|]. split; [cbn; lia|]. split; [reflexivity|].
  apply (seekplcp_stays_seeking (wlanframesync_create []) det_window);
    [reflexivity | cbn; lia | reflexivity].
Defined.

Lemma reachable_full : forall q, reachable q ->
  state q = WLANFRAMESYNC_STATE_SEEKPLCP /\ (0 <= timer q < 64)%Z /\
  length (input_buffer q) = 80%nat /\
  Forall (fun e => is_report e = true) (trace q).
Proof.
  induction 1 as [g0| q buf q' _ [Hs [Ht [Hl Hf]]] E | q _ [Hs [Ht [Hl Hf]]]].
  - cbn. split; [reflexivity|]. split; [lia|]. split; [reflexivity|constructor].
  - destruct (execute_seek_full buf q Hs Ht Hl) as
      [q2 [r [E2 [Hs2 [_ [Ht2 [Hb2 [Htr2 [_ Hr]]]]]]]]].
    rewrite E in E2. injection E2 as <-.
    repeat split.
    + exact Hs2.
    + rewrite Ht2. apply Z.mod_pos_bound. lia.
    + rewrite Ht2. apply Z.mod_pos_bound. lia.
    + rewrite Hb2, length_skipn, length_app. lia.
    + rewrite Htr2. apply Forall_app. split; assumption.
  - cbn. repeat split; auto; lia.
Qed.

(** X1: in every reachable object the SEEK_PLCP timer stays in [0, 64)
    and the input window holds exactly 80 samples, so the reads
    [rc[16..80)] of the handler are in bounds. *)
Theorem reachable_timer_window : forall q, reachable q ->
  (0 <= timer q < 64)%Z /\ length (input_buffer q) = 80%nat.
Proof.
  intros q H. destruct (reachable_full q H) as [_ [Ht [Hl _]]]. auto.
Qed.

Lemma reachable_timer_window_witness :
  reachable (wlanframesync_create []) /\
  (0 <= timer (wlanframesync_create []) < 64)%Z /\
  length (input_buffer (wlanframesync_create [])) = 80%nat.
Proof.
  split; [apply reach_create|].
  apply (reachable_timer_window (wlanframesync_create [])). apply reach_create.
Defined.





(** X4: after a call from a reachable object, the input window holds the
    last 80 samples of (old window ++ buffer), unmixed: in SEEK_PLCP the
    samples are pushed raw. *)
Theorem execute_window_last80 : forall q buf, reachable q ->
  exists q', wlanframesync_execute q buf = Some q' /\
  input_buffer q' = skipn (length buf) (input_buffer q ++ buf) /\
  length (input_buffer q') = 80%nat.
Proof.
  intros q buf H. destruct (reachable_full q H) as [Hs [Ht [Hl _]]].
  destruct (execute_seek_full buf q Hs Ht Hl) as
    [q' [r [E [_ [_ [_ [Hb _]]]]]]].
  exists q'. repeat split; auto.
  rewrite Hb, length_skipn, length_app. lia.
Qed.

Lemma execute_window_last80_witness :
  reachable (wlanframesync_create []) /\
  exists q', wlanframesync_execute (wlanframesync_create []) [C1] = Some q' /\
  input_buffer q' = skipn 1 (input_buffer (wlanframesync_create []) ++ [C1]) /\
  length (input_buffer q') = 80%nat.
Proof.
  split; [apply reach_create|].
  apply (execute_window_last80 (wlanframesync_create []) [C1]). apply reach_create.
Defined.

(** X5: the frame callback is never invoked: every event in the trace of a
    reachable object is a SEEK_PLCP report. *)
Theorem reachable_no_callback : forall q, reachable q ->
  forall e, In e (trace q) -> is_report e = true.
Proof.
  intros q H. destruct (reachable_full q H) as [_ [_ [_ Hf]]].
  apply Forall_forall. exact Hf.
Qed.

Lemma reachable_no_callback_witness :
  reachable (wlanframesync_execute_seekplcp
    (mkSync WLANFRAMESYNC_STATE_SEEKPLCP 63 (repeat C0 16 ++ det_window)
            nco_crcf_create [] [])) /\
  trace (wlanframesync_execute_seekplcp
    (mkSync WLANFRAMESYNC_STATE_SEEKPLCP 63 (repeat C0 16 ++ det_window)
            nco_crcf_create [] [])) <> [] /\
  forall e, In e (trace (wlanframesync_execute_seekplcp
    (mkSync WLANFRAMESYNC_STATE_SEEKPLCP 63 (repeat C0 16 ++ det_window)
            nco_crcf_create [] []))) -> is_report e = true.
Proof.
  assert (H : reachable (wlanframesync_execute_seekplcp
    (mkSync WLANFRAMESYNC_STATE_SEEKPLCP 63 (repeat C0 16 ++ det_window)
            nco_crcf_create [] []))).
  { apply (reach_execute (wlanframesync_create []) det_window);
      [apply reach_create | apply execute_det_window]. }
  split; [exact H|]. split.
  - unfold wlanframesync_execute_seekplcp. cbn [timer set_timer].
    replace (63 + 1 <? 64)%Z with false by reflexivity.
    cbn [trace emit set_G0a set_timer]. discriminate.
  - apply (reachable_no_callback _ H).
Defined.

Lemma dispatch_stub : forall q, (1 <= state q <= 6)%Z -> dispatch q = Some q.
Proof.
  intros q H. unfold dispatch.
  assert (E : state q = 1%Z \/ state q = 2%Z \/ state q = 3%Z \/
              state q = 4%Z \/ state q = 5%Z \/ state q = 6%Z) by lia.
  destruct E as [E|[E|[E|[E|[E|E]]]]]; rewrite E; reflexivity.
Qed.

Lemma dispatch_invalid : forall q, (state q < 0 \/ 6 < state q)%Z ->
  dispatch q = None.
Proof.
  intros q H. unfold dispatch.
  destruct (state q) as [|p|p]; [lia| |reflexivity].
  do 3 (destruct p as [p|p|]; try reflexivity; try lia).
Qed.

(** X6: in the post-detection states RXSHORT0 .. RXDATA (all stubs) a call
    never fails and never changes the state, the timer, the gain array or
    the trace; only the NCO advances, by one step per sample. *)
Theorem execute_stub_states : forall q buf,
  (1 <= state q <= 6)%Z ->
  exists q', wlanframesync_execute q buf = Some q' /\
  state q' = state q /\ timer q' = timer q /\ G0a q' = G0a q /\
  trace q' = trace q /\
  nco_rx q' = Nat.iter (length buf) nco_crcf_step (nco_rx q).
Proof.
  intros q buf. revert q.
  induction buf as [|x buf IH]; intros q H.
  - exists q. repeat split; reflexivity.
  - cbn [wlanframesync_execute]. unfold step.
    assert (Hp : push_sample q x =
      set_buffer (set_nco q (nco_crcf_step (nco_rx q)))
        (windowcf_push (input_buffer q) (nco_crcf_mix_down (nco_rx q) x))).
    { unfold push_sample. destruct (Z.eqb_spec (state q) WLANFRAMESYNC_STATE_SEEKPLCP)
        as [E|E]; [unfold WLANFRAMESYNC_STATE_SEEKPLCP in E; lia | reflexivity]. }
    rewrite Hp, dispatch_stub by (cbn; exact H).
    destruct (IH (set_buffer (set_nco q (nco_crcf_step (nco_rx q)))
        (windowcf_push (input_buffer q) (nco_crcf_mix_down (nco_rx q) x))))
      as [q' [E [Hs [Ht [Hg [Htr Hn]]]]]]; [cbn; exact H|].
    exists q'. rewrite E. cbn in Hs, Ht, Hg, Htr, Hn.
    repeat split; auto.
    rewrite Hn. cbn [length]. symmetry. apply Nat.iter_succ_r.
Qed.

Lemma execute_stub_states_witness :
  (1 <= state (set_state (wlanframesync_create []) WLANFRAMESYNC_STATE_RXDATA) <= 6)%Z /\
  exists q', wlanframesync_execute
    (set_state (wlanframesync_create []) WLANFRAMESYNC_STATE_RXDATA) [C1; C1] = Some q' /\
  state q' = WLANFRAMESYNC_STATE_RXDATA /\ timer q' = 0%Z /\ G0a q' = [] /\
  trace q' = [] /\ nco_rx q' = Nat.iter 2 nco_crcf_step nco_crcf_create.
Proof.
  split; [vm_compute; split; discriminate|].
  apply (execute_stub_states
    (set_state (wlanframesync_create []) WLANFRAMESYNC_STATE_RXDATA) [C1; C1]).
  vm_compute; split; discriminate.
Defined.

(** X7: if the state field holds a value outside the seven states, the
    first sample of any non-empty buffer takes the [default] branch, which
    aborts the program ([exit(1)]). *)
Theorem execute_invalid_state_aborts : forall q x buf,
  (state q < 0 \/ 6 < state q)%Z ->
  wlanframesync_execute q (x :: buf) = None.
Proof.
  intros q x buf H. cbn [wlanframesync_execute]. unfold step.
  assert (Hs : state (push_sample q x) = state q).
  { unfold push_sample. destruct (state q =? WLANFRAMESYNC_STATE_SEEKPLCP)%Z;
      reflexivity. }
  rewrite dispatch_invalid by (rewrite Hs; exact H). reflexivity.
Qed.

Lemma execute_invalid_state_aborts_witness :
  (state (set_state (wlanframesync_create []) 7) < 0 \/
   6 < state (set_state (wlanframesync_create []) 7))%Z /\
  wlanframesync_execute (set_state (wlanframesync_create []) 7) [C1] = None.
Proof.
  split; [cbn; lia|].
  apply (execute_invalid_state_aborts (set_state (wlanframesync_create []) 7) C1 []).
  cbn; lia.
Defined.

(** X8: one call of the SEEK_PLCP handler either only advances the timer
    (while timer + 1 < 64; G0a and the trace are left as they were), or
    resets the timer to 0, overwrites G0a with the S0 gain estimate of
    rc[16..80) and appends exactly one report (g, s_hat) with
    g = 64 / (energy of rc[16..80) + 1e-6) and s_hat = g * S0_metrics(G0a);
    that g lies in (0, 6.4e7], the added 1e-6 keeping the division defined
    on a silent window.  The handler never touches the window, the state or
    the NCO. *)
Theorem seekplcp_count_or_report : forall q,
  input_buffer (wlanframesync_execute_seekplcp q) = input_buffer q /\
  state (wlanframesync_execute_seekplcp q) = state q /\
  nco_rx (wlanframesync_execute_seekplcp q) = nco_rx q /\
  ((timer q + 1 < 64)%Z /\
   timer (wlanframesync_execute_seekplcp q) = (timer q + 1)%Z /\
   G0a (wlanframesync_execute_seekplcp q) = G0a q /\
   trace (wlanframesync_execute_seekplcp q) = trace q
   \/
   (64 <= timer q + 1)%Z /\
   timer (wlanframesync_execute_seekplcp q) = 0%Z /\
   G0a (wlanframesync_execute_seekplcp q) =
     wlanframesync_estimate_gain_S0 (skipn 16 (input_buffer q)) /\
   trace (wlanframesync_execute_seekplcp q) = trace q ++
     [EvSeekReport (64 / (energy (skipn 16 (input_buffer q)) + 0.000001))
        (Cscale (64 / (energy (skipn 16 (input_buffer q)) + 0.000001))
           (wlanframesync_S0_metrics
              (wlanframesync_estimate_gain_S0 (skipn 16 (input_buffer q)))))] /\
   0 < 64 / (energy (skipn 16 (input_buffer q)) + 0.000001) <= 64000000).
Proof.
  intros q. unfold wlanframesync_execute_seekplcp.
  cbn [timer set_timer].
  destruct (timer q + 1 <? 64)%Z eqn:E.
  - apply Z.ltb_lt in E. cbn. repeat split; auto.
  - apply Z.ltb_ge in E. cbn [state input_buffer nco_rx timer trace emit
      set_G0a set_timer G0a]. repeat split; auto. right.
    split; [lia|]. split; [reflexivity|]. split; [reflexivity|].
    split; [reflexivity|].
    pose proof (energy_fold_nonneg (skipn 16 (input_buffer q)) 0 (Rle_refl 0)).
    fold (energy (skipn 16 (input_buffer q))) in H.
    split.
    + apply Rdiv_lt_0_compat; lra.
    + apply Rmult_le_reg_r with (energy (skipn 16 (input_buffer q)) + 0.000001);
        [lra|]. unfold Rdiv. rewrite Rmult_assoc, Rinv_l by lra. nra.
Qed.

Lemma get_set_nth_neq : forall l i k v, i <> k ->
  get (set_nth l i v) k = get l k.
Proof.
  unfold get. induction l as [|a l IH]; intros i k v H; [reflexivity|].
  destruct i as [|i], k as [|k]; cbn; try reflexivity; [congruence|].
  apply IH. congruence.
Qed.

Lemma length_set_nth : forall {A} (l : list A) i v,
  length (set_nth l i v) = length l.
Proof.
  induction l as [|a l IH]; intros i v; [reflexivity|].
  destruct i; cbn; [reflexivity|]. rewrite IH. reflexivity.
Qed.

Lemma estimate_gain_S0_off : forall x k, ~ In k S0_bins ->
  length (wlanframesync_estimate_gain_S0 x) = 64%nat /\
  get (wlanframesync_estimate_gain_S0 x) k = C0.
Proof.
  intros x k H. unfold wlanframesync_estimate_gain_S0. cbv zeta. split.
  - rewrite !length_set_nth. apply repeat_length.
  - cbn [S0_bins In] in H.
    rewrite !get_set_nth_neq by (intros E; apply H; subst; tauto).
    unfold get. apply nth_repeat.
Qed.

(** X9: the S0 gain estimate is a 64-entry array that is zero at every
    index outside the 12 S0 bins, whatever the input window. *)
Theorem estimate_gain_S0_zero_off_bins : forall x k, ~ In k S0_bins ->
  length (wlanframesync_estimate_gain_S0 x) = 64%nat /\
  get (wlanframesync_estimate_gain_S0 x) k = C0.
Proof. exact estimate_gain_S0_off. Qed.

Lemma estimate_gain_S0_zero_off_bins_witness :
  ~ In 0%nat S0_bins /\
  length (wlanframesync_estimate_gain_S0 impulse64) = 64%nat /\
  get (wlanframesync_estimate_gain_S0 impulse64) 0 = C0.
Proof.
  split; [cbn; lia|].
  apply (estimate_gain_S0_zero_off_bins impulse64 0). cbn; lia.
Defined.

Lemma dft_sum_scale : forall c xs k n,
  dft_sum (map (Cmul c) xs) k n = Cmul c (dft_sum xs k n).
Proof.
  intros c. induction xs as [|x xs IH]; intros k n; cbn [dft_sum map].
  - apply C_ext; C_unfold; ring.
  - rewrite IH. apply C_ext; C_unfold; ring.
Qed.

Lemma estimate_gain_S0_scale_get : forall c x k,
  get (wlanframesync_estimate_gain_S0 (map (Cmul c) x)) k =
  Cmul c (get (wlanframesync_estimate_gain_S0 x) k).
Proof.
  intros c x k. destruct (in_dec Nat.eq_dec k S0_bins) as [Hin|Hout].
  - pose proof (estimate_gain_S0_bins (map (Cmul c) x)) as A.
    pose proof (estimate_gain_S0_bins x) as B.
    rewrite Forall_forall in A, B. rewrite (A k Hin), (B k Hin).
    unfold dft. rewrite firstn_map, dft_sum_scale.
    apply C_ext; C_unfold; ring.
  - destruct (estimate_gain_S0_off (map (Cmul c) x) k Hout) as [_ ->].
    destruct (estimate_gain_S0_off x k Hout) as [_ ->].
    apply C_ext; C_unfold; ring.
Qed.

(** X10: the S0 gain estimate is linear in the window: multiplying every
    input sample by a complex constant c multiplies every entry of G by c. *)
Theorem estimate_gain_S0_linear : forall c x k,
  get (wlanframesync_estimate_gain_S0 (map (Cmul c) x)) k =
  Cmul c (get (wlanframesync_estimate_gain_S0 x) k).
Proof. exact estimate_gain_S0_scale_get. Qed.

Lemma S0_metrics_common_gain : forall c G G',
  (forall k, get G' k = Cmul c (get G k)) ->
  wlanframesync_S0_metrics G' =
  Cscale (re c * re c + im c * im c) (wlanframesync_S0_metrics G).
Proof.
  intros c G G' H. unfold wlanframesync_S0_metrics, acc. rewrite !H.
  apply C_ext; C_unfold; ring.
Qed.

(** X11: a flat complex channel gain c on the input window only scales the
    S0 metric by |c|^2: its phase (arg s_hat, hence tau_hat) is unchanged
    by a common phase rotation of the samples. *)
Theorem S0_metric_flat_channel : forall c x,
  wlanframesync_S0_metrics (wlanframesync_estimate_gain_S0 (map (Cmul c) x)) =
  Cscale (re c * re c + im c * im c)
    (wlanframesync_S0_metrics (wlanframesync_estimate_gain_S0 x)).
Proof.
  intros c x. apply S0_metrics_common_gain. apply estimate_gain_S0_scale_get.
Qed.

Lemma skipn_16_fill : forall xs : list C, skipn 16 (repeat C0 16 ++ xs) = xs.
Proof. intros xs. reflexivity. Qed.

(** X12: the first report after a reset analyses exactly the 64 samples
    received since: after a reset and 64 samples xs, the object has emitted
    one report with g = 64 / (sum |xs|^2 + 1e-6) and
    s_hat = g * S0_metrics(estimate_gain_S0 xs), and its timer is back at 0. *)
Theorem reset_first_report : forall q xs, length xs = 64%nat ->
  exists q', wlanframesync_execute (wlanframesync_reset q) xs = Some q' /\
  timer q' = 0%Z /\ G0a q' = wlanframesync_estimate_gain_S0 xs /\
  trace q' = trace q ++
    [EvSeekReport (64 / (energy xs + 0.000001))
       (Cscale (64 / (energy xs + 0.000001))
          (wlanframesync_S0_metrics (wlanframesync_estimate_gain_S0 xs)))].
Proof.
  intros q xs Hl.
  destruct (exists_last (l := xs)) as [ys [y E]]; [intros ->; discriminate|].
  subst xs. rewrite length_app in Hl. cbn [length] in Hl.
  rewrite execute_app, execute_seek_count by (cbn; lia).
  cbn [wlanframesync_execute]. unfold step, push_sample, dispatch.
  cbn [state timer input_buffer nco_rx G0a trace wlanframesync_reset set_buffer
       set_state set_timer WLANFRAMESYNC_STATE_SEEKPLCP Z.eqb].
  eexists; split; [reflexivity|].
  unfold wlanframesync_execute_seekplcp.
  cbn [state timer input_buffer nco_rx G0a trace set_buffer set_timer set_G0a emit].
  assert (E63 : (0 + Z.of_nat (length ys) + 1 <? 64)%Z = false)
    by (apply Z.ltb_ge; lia).
  rewrite E63.
  replace (windowcf_push (fold_left windowcf_push ys windowcf_clear) y)
    with (repeat C0 16 ++ ys ++ [y]).
  2:{ transitivity (fold_left windowcf_push (ys ++ [y]) windowcf_clear).
      - rewrite window_fill by (rewrite length_app; cbn [length]; lia).
        rewrite length_app. cbn [length]. rewrite Hl. reflexivity.
      - rewrite fold_left_app. reflexivity. }
  rewrite skipn_16_fill. cbn. repeat split; reflexivity.
Qed.

Lemma reset_first_report_witness :
  length impulse64 = 64%nat /\
  exists q', wlanframesync_execute (wlanframesync_reset (wlanframesync_create []))
               impulse64 = Some q' /\
  timer q' = 0%Z /\ G0a q' = wlanframesync_estimate_gain_S0 impulse64 /\
  trace q' = [EvSeekReport (64 / (energy impulse64 + 0.000001))
       (Cscale (64 / (energy impulse64 + 0.000001))
          (wlanframesync_S0_metrics (wlanframesync_estimate_gain_S0 impulse64)))].
Proof.
  split; [reflexivity|].
  apply (reset_first_report (wlanframesync_create []) impulse64). reflexivity.
Defined.

Lemma estimate_gain_S0_silent : forall k,
  get (wlanframesync_estimate_gain_S0 (repeat C0 64)) k = C0.
Proof.
  intros k. destruct (in_dec Nat.eq_dec k S0_bins) as [Hin|Hout].
  - pose proof (estimate_gain_S0_bins (repeat C0 64)) as A.
    rewrite Forall_forall in A. rewrite (A k Hin).
    unfold dft. rewrite firstn_all2 by (rewrite repeat_length; lia).
    rewrite dft_sum_zeros. apply C_ext; C_unfold; ring.
  - destruct (estimate_gain_S0_off (repeat C0 64) k Hout) as [_ ->]. reflexivity.
Qed.

(** X13: on a silent window (the last 64 samples all zero, as right after a
    reset), the report that the 64th sample triggers carries the largest gain
    64 / 1e-6 and a zero metric s_hat. *)
Theorem seekplcp_silent_window : forall q,
  timer q = 63%Z -> skipn 16 (input_buffer q) = repeat C0 64 ->
  trace (wlanframesync_execute_seekplcp q) =
  trace q ++ [EvSeekReport (64 / 0.000001) C0].
Proof.
  intros q Ht Hb. unfold wlanframesync_execute_seekplcp.
  cbn [timer set_timer]. rewrite Ht.
  replace (63 + 1 <? 64)%Z with false by reflexivity.
  cbn [trace emit set_G0a set_timer input_buffer G0a]. rewrite Hb.
  unfold energy. rewrite energy_zeros, Rplus_0_l. do 3 f_equal.
  rewrite (S0_metrics_common_gain C0 (repeat C0 64)
             (wlanframesync_estimate_gain_S0 (repeat C0 64))).
  - apply C_ext; C_unfold; ring.
  - intros k. rewrite estimate_gain_S0_silent. unfold get.
    apply C_ext; C_unfold; ring.
Qed.

Lemma seekplcp_silent_window_witness :
  timer (set_timer (wlanframesync_create []) 63) = 63%Z /\
  skipn 16 (input_buffer (set_timer (wlanframesync_create []) 63)) = repeat C0 64 /\
  trace (wlanframesync_execute_seekplcp (set_timer (wlanframesync_create []) 63)) =
  [EvSeekReport (64 / 0.000001) C0].
Proof.
  split; [reflexivity|]. split; [reflexivity|].
  apply (seekplcp_silent_window (set_timer (wlanframesync_create []) 63));
    reflexivity.
Defined.

(** X14: the S0 metric reads only the 12 S0 bins of the gain array: two
    arrays that agree there give the same metric, whatever the other 52
    entries hold. *)
Theorem S0_metrics_only_S0_bins : forall G G',
  (forall k, In k S0_bins -> get G k = get G' k) ->
  wlanframesync_S0_metrics G = wlanframesync_S0_metrics G'.
Proof.
  intros G G' H. unfold wlanframesync_S0_metrics, acc.
  repeat match goal with
         | |- context [get G ?k] => rewrite (H k) by (cbn; tauto)
         end.
  reflexivity.
Qed.

Lemma S0_metrics_only_S0_bins_witness :
  (forall k, In k S0_bins -> get (repeat C1 64) k = get (set_nth (repeat C1 64) 0 C0) k) /\
  wlanframesync_S0_metrics (repeat C1 64) =
  wlanframesync_S0_metrics (set_nth (repeat C1 64) 0 C0).
Proof.
  assert (H : forall k, In k S0_bins ->
            get (repeat C1 64) k = get (set_nth (repeat C1 64) 0 C0) k).
  { intros k Hk. rewrite get_set_nth_neq; [reflexivity|].
    intros <-. cbn in Hk. lia. }
  split; [exact H|]. apply (S0_metrics_only_S0_bins _ _ H).
Defined.
